(** * A shallow embedding of [app.py]

    The Flask application of the repository: a liveness probe
    ([health_check]), a text-analysis endpoint ([analyze_text]) and the two
    error handlers ([not_found], [method_not_allowed]).

    Python values are modelled as the interpreter has them: a [str] is a
    sequence of Unicode code points, a parsed JSON document is a tagged
    value whose objects are dictionaries, and an operation that raises
    returns in an error monad.  The process-wide [logger] is the only state
    the handlers touch; it is threaded explicitly. *)

From Stdlib Require Import ZArith NArith List Bool Ascii String Lia.
From Stdlib Require Import Floats.SpecFloat.
From stdpp Require Import base option list countable gmap strings.

Open Scope Z_scope.

(** ** Python strings *)

(** A code point, [0 .. 0x10FFFF]. *)
Abbreviation codepoint := N (only parsing).

(** A Python [str]: a sequence of code points.  [len] counts them. *)
Abbreviation str := (list N) (only parsing).

(** An ASCII literal of the source as a [str]. *)
Fixpoint lit (s : string) : str :=
  match s with
  | EmptyString => []
  | String a s' => N_of_ascii a :: lit s'
  end.

Arguments lit : simpl never.

(** [len(text)] *)
Definition len {A} (l : list A) : Z := Z.of_nat (length l).

(** [Py_UNICODE_ISSPACE]: the characters [str.split()] and [str.strip()]
    treat as whitespace. *)
Definition isspace (c : codepoint) : bool :=
  ((9 <=? c) && (c <=? 13) || (28 <=? c) && (c <=? 32)
   || (c =? 133) || (c =? 160) || (c =? 5760)
   || (8192 <=? c) && (c <=? 8202)
   || (c =? 8232) || (c =? 8233) || (c =? 8239) || (c =? 8287)
   || (c =? 12288))%N.

(** [s.lstrip()], [s.rstrip()] and [s.strip()] without arguments. *)
Fixpoint lstrip (s : str) : str :=
  match s with
  | [] => []
  | c :: s' => if isspace c then lstrip s' else s
  end.

Definition rstrip (s : str) : str := rev (lstrip (rev s)).

Definition strip (s : str) : str := rstrip (lstrip s).

(** [s.split()] without arguments: scan left to right, [cur] holding the
    characters of the word being read; a whitespace character closes the
    word when there is one and is skipped otherwise. *)
Fixpoint split_from (cur : str) (s : str) : list str :=
  match s with
  | [] => match cur with [] => [] | _ :: _ => [cur] end
  | c :: s' =>
      if isspace c
      then match cur with
           | [] => split_from [] s'
           | _ :: _ => cur :: split_from [] s'
           end
      else split_from (cur ++ [c]) s'
  end.

Definition split (s : str) : list str := split_from [] s.

(** A character that is part of a word. *)
Definition nonspace (c : codepoint) : bool := negb (isspace c).

(** Truth value of a [str]: non-empty. *)
Definition truthy (s : str) : bool :=
  match s with [] => false | _ :: _ => true end.

(** ** Parsed JSON *)

#[local] Set Warnings "-register-all".

(** What [json.loads] produces: [None], [bool], [int], [float], [str],
    [list] and [dict] with [str] keys. *)
Inductive json : Type :=
  | JNull
  | JBool (b : bool)
  | JInt (z : Z)
  | JFloat (f : spec_float)
  | JStr (s : str)
  | JList (l : list json)
  | JDict (d : gmap (list N) json).


(** A dict literal [{k1: v1, ...}]. *)
Definition dict (items : list (list N * json)) : json :=
  JDict (list_to_map items).

(** [isinstance(v, str)] *)
Definition isinstance_str (v : json) : bool :=
  match v with JStr _ => true | _ => false end.

(** [a == b] for a [str] [a]: only an equal [str] compares equal. *)
Definition str_eqb (a b : str) : bool := bool_decide (a = b).

Definition eq_str (a : str) (v : json) : bool :=
  match v with JStr b => str_eqb a b | _ => false end.

(** [needle in s] for two [str]: the substring test. *)
Fixpoint startswith (s prefix : str) : bool :=
  match prefix, s with
  | [], _ => true
  | _ :: _, [] => false
  | p :: prefix', c :: s' => (p =? c)%N && startswith s' prefix'
  end.

Fixpoint substring_of (needle s : str) : bool :=
  startswith s needle ||
  match s with
  | [] => false
  | _ :: s' => substring_of needle s'
  end.

(** ** Exceptions, the logger and the handler monad *)

(** The exceptions the handler's operations raise; each is a subclass of
    [Exception].  [BadRequest] is what [request.get_json()] raises on a body
    it cannot parse. *)
Inductive exn : Type := BadRequest | TypeError | KeyError.

Inductive result (A : Type) : Type :=
  | Ok (a : A)
  | Raise (e : exn).
Arguments Ok {A} a.
Arguments Raise {A} e.

(** The records the handler writes to the module's [logger]. *)
Inductive log_record : Type :=
  | Info_analyzed (word_count character_count : Z)
      (* logger.info(f"Analyzed text with {word_count} words and
         {character_count} characters") *)
  | Error_processing (e : exn).
      (* logger.error(f"Error processing request: {str(e)}") *)

(** The process-wide logger: the records written so far, oldest first. *)
Abbreviation logger := (list log_record) (only parsing).

(** A computation that reads and extends the log and returns or raises. *)
Definition py (A : Type) : Type := logger -> result A * logger.

Definition ret {A} (a : A) : py A := fun lg => (Ok a, lg).

Definition raise {A} (e : exn) : py A := fun lg => (Raise e, lg).

Definition bind {A B} (m : py A) (k : A -> py B) : py B :=
  fun lg =>
    match m lg with
    | (Ok a, lg') => k a lg'
    | (Raise e, lg') => (Raise e, lg')
    end.

Definition lift {A} (r : result A) : py A := fun lg => (r, lg).

(** [try: body except Exception as e: handler(e)] *)
Definition try_except {A} (body : py A) (handler : exn -> py A) : py A :=
  fun lg =>
    match body lg with
    | (Ok a, lg') => (Ok a, lg')
    | (Raise e, lg') => handler e lg'
    end.

Definition log (r : log_record) : py unit := fun lg => (Ok tt, lg ++ [r]).

Declare Scope py_scope.
Delimit Scope py_scope with py.
Notation "x <- m ;; k" := (bind m (fun x => k))
  (at level 100, m at next level, right associativity) : py_scope.
Notation "m ;;; k" := (bind m (fun _ => k))
  (at level 100, right associativity) : py_scope.
Open Scope py_scope.

(** ['text' in data]: key membership for a dict, element membership for a
    list, the substring test for a str, [TypeError] for the rest. *)
Definition contains (needle : str) (data : json) : py bool :=
  match data with
  | JDict d => ret (match d !! needle with Some _ => true | None => false end)
  | JList l => ret (existsb (eq_str needle) l)
  | JStr s => ret (substring_of needle s)
  | JNull | JBool _ | JInt _ | JFloat _ => raise TypeError
  end.

(** [data[key]] for a [str] key: a dict lookup; a list or a str takes
    integer indices only, the rest is not subscriptable. *)
Definition getitem (data : json) (key : str) : py json :=
  match data with
  | JDict d => match d !! key with Some v => ret v | None => raise KeyError end
  | _ => raise TypeError
  end.

(** ** Requests and responses *)

(** What Flask answers by itself to a request that [app.py] leaves to it:
    the static view that [Flask(__name__)] registers (the file, or no such
    file), and the routing of a path that Werkzeug first normalises.  It
    raises one of the two routing errors or builds a response of its own
    (a file, a redirect). *)
Inductive flask_answer : Type :=
  | RaisesNotFound
  | RaisesMethodNotAllowed
  | Answers (status : Z) (data : string).

(** One request as Flask presents it: [request.method], [request.path],
    [request.mimetype] (the declared content type, parameters dropped, in
    lower case), the outcome of [request.get_json()] (the parsed body, or
    the exception raised for a body that does not parse), and Flask's own
    answer where the request is left to it. *)
Record request : Type := {
  method : string;
  path : string;
  mimetype : string;
  get_json : result json;
  flask_own : flask_answer
}.

(** [s.endswith(suffix)] *)
Fixpoint ends_with (s suffix : string) : bool :=
  String.eqb s suffix
  || match s with
     | EmptyString => false
     | String _ s' => ends_with s' suffix
     end.

(** [request.is_json]: the media type is [application/json] or
    [application/*+json]. *)
Definition is_json (request : request) : bool :=
  let mt := mimetype request in
  String.eqb mt "application/json"
  || String.prefix "application/" mt && ends_with mt "+json".

Arguments is_json : simpl never.

(** A response: the pair [(jsonify(body), status)] a view returns, the
    response Flask builds itself for an [OPTIONS] request, or another
    response of Flask's own. *)
Inductive response : Type :=
  | Response (body : json) (status : Z)
  | DefaultOptionsResponse (allow : list string)
  | FlaskResponse (status : Z) (data : string).

Definition jsonify (j : json) : json := j.

(** ** The views of [app.py] *)

Definition health_check (_ : request) : py response :=
  ret (Response (jsonify (dict [(lit "status", JStr (lit "healthy"))])) 200).

Definition error_body (msg : string) : json :=
  dict [(lit "error", JStr (lit msg))].

Definition word_count_of (text : str) : Z :=
  if truthy (strip text) then len (split text) else 0.

Definition analysis (text : str) (word_count character_count : Z) : json :=
  dict [(lit "original_text", JStr text);
        (lit "word_count", JInt word_count);
        (lit "character_count", JInt character_count)].

(** The [try] block in the order of the source: content type, parse, key,
    type of the value, analysis.  The [match] on [JStr] is the test
    [isinstance(text, str)], after which [text] is used as a [str]. *)
Definition analyze_text (request : request) : py response :=
  try_except
    (if negb (is_json request)
     then ret (Response
                 (jsonify (error_body "Content-Type must be application/json"))
                 400)
     else
       data <- lift (get_json request) ;;
       present <- contains (lit "text") data ;;
       if negb present
       then ret (Response
                   (jsonify (error_body "Missing required field: text")) 400)
       else
         text <- getitem data (lit "text") ;;
         match text with
         | JStr text =>
             let word_count := word_count_of text in
             let character_count := len text in
             let response := analysis text word_count character_count in
             log (Info_analyzed word_count character_count) ;;;
             ret (Response (jsonify response) 200)
         | _ =>
             ret (Response
                    (jsonify (error_body "Field 'text' must be a string")) 400)
         end)
    (fun e =>
       log (Error_processing e) ;;;
       ret (Response (jsonify (error_body "Internal server error")) 500)).

Definition not_found : response :=
  Response (jsonify (error_body "Endpoint not found")) 404.

Definition method_not_allowed : response :=
  Response (jsonify (error_body "Method not allowed")) 405.

(** The four error responses [analyze_text] returns, by the line that
    returns them. *)
Definition bad_content_type : response :=
  Response (jsonify (error_body "Content-Type must be application/json")) 400.

Definition missing_field : response :=
  Response (jsonify (error_body "Missing required field: text")) 400.

Definition not_a_string : response :=
  Response (jsonify (error_body "Field 'text' must be a string")) 400.

Definition internal_error : response :=
  Response (jsonify (error_body "Internal server error")) 500.

(** The response of the last [return] of the [try] block. *)
Definition analyzed (text : str) : response :=
  Response (jsonify (analysis text (word_count_of text) (len text))) 200.

(** ** Routing *)

(** The endpoints: the static view of [Flask(__name__)] and the two views
    of [app.py]. *)
Inductive endpoint : Type := ep_static | ep_health_check | ep_analyze_text.

(** The shape of a rule: a fixed path, or a prefix followed by a
    [<path:...>] variable, which takes the non-empty rest of the path. *)
Inductive url_pattern : Type :=
  | Literal (p : string)
  | PathUnder (prefix : string).

(** A rule of the URL map. *)
Record rule : Type := {
  rule_path : url_pattern;
  rule_methods : list string;
  rule_endpoint : endpoint
}.

(** [/static/<path:filename>], registered by [Flask(__name__)], then the
    rules of the two [@app.route(rule, methods=[...])]. *)
Definition static_rule : rule :=
  {| rule_path := PathUnder "/static/"; rule_methods := ["GET"%string];
     rule_endpoint := ep_static |}.

Definition health_rule : rule :=
  {| rule_path := Literal "/health"; rule_methods := ["GET"%string];
     rule_endpoint := ep_health_check |}.

Definition analyze_rule : rule :=
  {| rule_path := Literal "/analyze"; rule_methods := ["POST"%string];
     rule_endpoint := ep_analyze_text |}.

Definition url_map : list rule := [static_rule; health_rule; analyze_rule].

Definition mem (x : string) (l : list string) : bool :=
  existsb (String.eqb x) l.

(** The methods a rule answers: those listed, [HEAD] along with [GET], and
    [OPTIONS], which Flask answers itself. *)
Definition allowed_methods (r : rule) : list string :=
  rule_methods r
  ++ (if mem "GET" (rule_methods r) then ["HEAD"%string] else [])
  ++ ["OPTIONS"%string].

(** A path that Werkzeug matches as it stands: no two slashes in a row and
    no newline. *)
Fixpoint simple_path (p : string) : bool :=
  match p with
  | EmptyString => true
  | String c p' =>
      negb (Ascii.eqb c "010")
      && negb (Ascii.eqb c "/"
               && match p' with
                  | String d _ => Ascii.eqb d "/"
                  | EmptyString => false
                  end)
      && simple_path p'
  end.

Definition matches (pat : url_pattern) (p : string) : bool :=
  match pat with
  | Literal s => String.eqb s p
  | PathUnder prefix =>
      String.prefix prefix p && (String.length prefix <? String.length p)%nat
  end.

(** The rules that match a path as it stands; [None] for a path whose
    matching is left to Werkzeug. *)
Definition match_path (p : string) : option (list rule) :=
  if simple_path p
  then Some (List.filter (fun r => matches (rule_path r) p) url_map)
  else None.

Inductive routing : Type :=
  | Matched (r : rule)
  | NotFound
  | MethodNotAllowed
  | Answered (status : Z) (data : string).

Definition match_request (request : request) : routing :=
  match match_path (path request) with
  | None =>
      match flask_own request with
      | RaisesNotFound => NotFound
      | RaisesMethodNotAllowed => MethodNotAllowed
      | Answers status data => Answered status data
      end
  | Some [] => NotFound
  | Some rs =>
      match find (fun r => mem (method request) (allowed_methods r)) rs with
      | Some r => Matched r
      | None => MethodNotAllowed
      end
  end.

(** Flask's static view: the file, or [NotFound], which the handler
    registered for 404 answers. *)
Definition send_static_file (request : request) : py response :=
  match flask_own request with
  | RaisesNotFound => ret not_found
  | RaisesMethodNotAllowed => ret method_not_allowed
  | Answers status data => ret (FlaskResponse status data)
  end.

Definition view_function (e : endpoint) : request -> py response :=
  match e with
  | ep_static => send_static_file
  | ep_health_check => health_check
  | ep_analyze_text => analyze_text
  end.

(** One request through the application: route it, then run the view or the
    registered error handler. *)
Definition dispatch_request (request : request) : py response :=
  match match_request request with
  | NotFound => ret not_found
  | MethodNotAllowed => ret method_not_allowed
  | Answered status data => ret (FlaskResponse status data)
  | Matched r =>
      if String.eqb (method request) "OPTIONS"
      then ret (DefaultOptionsResponse (allowed_methods r))
      else view_function (rule_endpoint r) request
  end.

(** ** Observations on responses *)

Definition status_of (r : response) : Z :=
  match r with
  | Response _ status => status
  | DefaultOptionsResponse _ => 200
  | FlaskResponse status _ => status
  end.

(** A member of a JSON response body. *)
Definition field (key : string) (r : response) : option json :=
  match r with
  | Response (JDict d) _ => d !! lit key
  | _ => None
  end.

(** ** The words of a text, as the specification defines them *)

(** Splitting on whitespace: every whitespace character ends a piece, so
    adjacent, leading and trailing whitespace leave empty pieces. *)
Fixpoint pieces (s : str) : list str :=
  match s with
  | [] => [[]]
  | c :: s' =>
      if isspace c then [] :: pieces s'
      else match pieces s' with
           | p :: ps => (c :: p) :: ps
           | [] => [[c]]
           end
  end.

(** The whitespace-delimited non-empty tokens: the pieces, the empty ones
    discarded. *)
Definition tokens (s : str) : list str := List.filter truthy (pieces s).

(** The size of a code point in UTF-8. *)
Definition utf8_size (c : codepoint) : Z :=
  if (c <? 128)%N then 1
  else if (c <? 2048)%N then 2
  else if (c <? 65536)%N then 3
  else 4.

Definition utf8_length (s : str) : Z :=
  fold_right (fun c n => utf8_size c + n) 0 s.

(** The request of the documented example. *)
Definition example_text : str := lit "I love cloud engineering!".

Definition example_request : request :=
  {| method := "POST"; path := "/analyze"; mimetype := "application/json";
     get_json := Ok (dict [(lit "text", JStr example_text)]);
     flask_own := RaisesNotFound |}.

(** Requests with a JSON content type whose body is not the expected one:
    a body that does not parse, [{}], [{"text": 123}], [null] and [[]]. *)
Definition post_json (body : result json) : request :=
  {| method := "POST"; path := "/analyze"; mimetype := "application/json";
     get_json := body; flask_own := RaisesNotFound |}.

Definition unparsable_request : request := post_json (Raise BadRequest).

Definition empty_object_request : request := post_json (Ok (dict [])).

Definition number_request : request :=
  post_json (Ok (dict [(lit "text", JInt 123)])).

Definition null_request : request := post_json (Ok JNull).

Definition empty_list_request : request := post_json (Ok (JList [])).

(** A request whose content type is not JSON, the example text as body. *)
Definition plain_request : request :=
  {| method := "POST"; path := "/analyze"; mimetype := "text/plain";
     get_json := Ok (dict [(lit "text", JStr example_text)]);
     flask_own := RaisesNotFound |}.

(** The example text, declared as [application/ld+json]. *)
Definition ld_json_request : request :=
  {| method := "POST"; path := "/analyze";
     mimetype := "application/ld+json";
     get_json := Ok (dict [(lit "text", JStr example_text)]);
     flask_own := RaisesNotFound |}.

(** Requests without a body, left to routing. *)
Definition bare_request (m p : string) (own : flask_answer) : request :=
  {| method := m; path := p; mimetype := ""; get_json := Raise BadRequest;
     flask_own := own |}.

(** ** A process serving requests *)

(** Requests served one after the other, the logger carried from each to
    the next; the responses in order. *)
Fixpoint serve (rs : list request) (lg : logger)
  : list (result response) * logger :=
  match rs with
  | [] => ([], lg)
  | r :: rs' =>
      let (resp, lg') := dispatch_request r lg in
      let (resps, lg'') := serve rs' lg' in
      (resp :: resps, lg'')
  end.

(** * Properties *)

(** ** Splitting and stripping *)

Lemma pieces_cons (s : str) : exists p ps, pieces s = p :: ps.
Proof.
  destruct s as [|c s]; simpl; [eauto|].
  destruct (isspace c); [eauto|].
  destruct (pieces s); eauto.
Qed.

Lemma truthy_app_r (cur : str) (c : N) : truthy (cur ++ [c]) = true.
Proof. destruct cur; reflexivity. Qed.

(** The scan of [split] with a word in progress yields the non-empty pieces
    of the rest, the word in progress joined to the first of them. *)
Lemma split_from_pieces (s cur p : str) (ps : list str) :
  pieces s = p :: ps ->
  split_from cur s = List.filter truthy ((cur ++ p) :: ps).
Proof.
  revert cur p ps.
  induction s as [|c s IH]; intros cur p ps Hp; simpl in Hp |- *.
  - injection Hp as <- <-. rewrite app_nil_r. destruct cur; reflexivity.
  - destruct (isspace c).
    + injection Hp as <- <-. rewrite app_nil_r.
      destruct (pieces_cons s) as (q & qs & Hq). rewrite Hq.
      rewrite (IH [] q qs Hq). simpl.
      destruct cur; reflexivity.
    + destruct (pieces_cons s) as (q & qs & Hq). rewrite Hq in Hp.
      injection Hp as <- <-.
      rewrite (IH (cur ++ [c]) q qs Hq).
      rewrite <- app_assoc. reflexivity.
Qed.

Lemma split_tokens (s : str) : split s = tokens s.
Proof.
  unfold split, tokens.
  destruct (pieces_cons s) as (p & ps & Hp).
  rewrite (split_from_pieces s [] p ps Hp), Hp. reflexivity.
Qed.

Lemma split_from_length (s cur : str) :
  (length (split_from cur s) <= length s + (if truthy cur then 1 else 0))%nat.
Proof.
  revert cur. induction s as [|c s IH]; intros cur; simpl.
  - destruct cur; simpl; lia.
  - destruct (isspace c).
    + specialize (IH []). simpl in IH. destruct cur; simpl; lia.
    + specialize (IH (cur ++ [c])). rewrite truthy_app_r in IH.
      destruct (truthy cur); lia.
Qed.

Lemma split_length (s : str) : (length (split s) <= length s)%nat.
Proof.
  pose proof (split_from_length s []) as H. simpl in H. unfold split. lia.
Qed.

Lemma split_all_space (s : str) :
  forallb isspace s = true -> split s = [].
Proof.
  unfold split. induction s as [|c s IH]; simpl; [reflexivity|].
  intros H. apply andb_true_iff in H as [Hc Hs]. rewrite Hc. auto.
Qed.

Lemma lstrip_nil (s : str) : lstrip s = [] <-> forallb isspace s = true.
Proof.
  induction s as [|c s IH]; simpl; [tauto|].
  destruct (isspace c); simpl; [exact IH|].
  split; discriminate.
Qed.

Lemma lstrip_head (s t : str) (c : N) : lstrip s = c :: t -> isspace c = false.
Proof.
  induction s as [|a s IH]; simpl; [discriminate|].
  destruct (isspace a) eqn:Ha; [exact IH|].
  intros H. injection H as <- _. exact Ha.
Qed.

Lemma forallb_rev {A} (f : A -> bool) (l : list A) :
  forallb f (rev l) = forallb f l.
Proof.
  induction l as [|a l IH]; simpl; [reflexivity|].
  rewrite forallb_app, IH. simpl. rewrite andb_true_r. apply andb_comm.
Qed.

Lemma strip_nil (s : str) : strip s = [] <-> forallb isspace s = true.
Proof.
  unfold strip, rstrip. split.
  - intros H. apply (f_equal (@rev N)) in H. rewrite rev_involutive in H.
    simpl in H. apply lstrip_nil in H. rewrite forallb_rev in H.
    destruct (lstrip s) as [|c t] eqn:Hs.
    + apply lstrip_nil. exact Hs.
    + apply lstrip_head in Hs. simpl in H. rewrite Hs in H. discriminate.
  - intros H. apply lstrip_nil in H. rewrite H. reflexivity.
Qed.

Lemma truthy_false (s : str) : truthy s = false <-> s = [].
Proof. destruct s; simpl; split; congruence. Qed.

(** The guard on [text.strip()] changes nothing: a text that strips to
    nothing splits into no words. *)
Lemma word_count_of_split (s : str) : word_count_of s = len (split s).
Proof.
  unfold word_count_of. destruct (truthy (strip s)) eqn:H; [reflexivity|].
  apply truthy_false, strip_nil, split_all_space in H. rewrite H. reflexivity.
Qed.

Lemma word_count_of_tokens (s : str) :
  word_count_of s = Z.of_nat (length (tokens s)).
Proof. rewrite word_count_of_split, split_tokens. reflexivity. Qed.

Lemma word_count_of_all_space (s : str) :
  forallb isspace s = true -> word_count_of s = 0.
Proof.
  intros H. rewrite word_count_of_split, (split_all_space s H). reflexivity.
Qed.

Lemma word_count_of_le_len (s : str) : word_count_of s <= len s.
Proof.
  rewrite word_count_of_split. unfold len.
  pose proof (split_length s). lia.
Qed.

(** ** The views *)

Ltac run_view :=
  unfold analyze_text, health_check, try_except, bind, lift, contains,
    getitem, log, ret, raise, jsonify.

(** Every exception of the [try] block ends in the [except] clause. *)
Lemma analyze_text_returns (r : request) (lg : logger) :
  exists resp lg', analyze_text r lg = (Ok resp, lg').
Proof.
  run_view.
  destruct (is_json r); simpl; [|eauto].
  destruct (get_json r) as [data|e]; [|eauto].
  destruct data as [| | | | s | l | d]; simpl; eauto.
  - destruct (substring_of _ s); simpl; eauto.
  - destruct (existsb _ l); simpl; eauto.
  - destruct (d !! lit "text") as [v|]; simpl; [|eauto].
    destruct v; simpl; eauto.
Qed.

Lemma analyze_text_not_json (r : request) (lg : logger) :
  is_json r = false ->
  analyze_text r lg
  = (Ok (Response (error_body "Content-Type must be application/json") 400),
     lg).
Proof. intros H. run_view. rewrite H. reflexivity. Qed.

Lemma analyze_text_raises (r : request) (lg : logger) (e : exn) :
  is_json r = true -> get_json r = Raise e ->
  analyze_text r lg
  = (Ok (Response (error_body "Internal server error") 500),
     lg ++ [Error_processing e]).
Proof. intros H1 H2. run_view. rewrite H1, H2. reflexivity. Qed.

Lemma analyze_text_missing (r : request) (lg : logger)
    (d : gmap (list N) json) :
  is_json r = true -> get_json r = Ok (JDict d) -> d !! lit "text" = None ->
  analyze_text r lg
  = (Ok (Response (error_body "Missing required field: text") 400), lg).
Proof. intros H1 H2 H3. run_view. rewrite H1, H2. simpl. rewrite H3. reflexivity. Qed.

Lemma analyze_text_not_str (r : request) (lg : logger)
    (d : gmap (list N) json) (v : json) :
  is_json r = true -> get_json r = Ok (JDict d) ->
  d !! lit "text" = Some v -> isinstance_str v = false ->
  analyze_text r lg
  = (Ok (Response (error_body "Field 'text' must be a string") 400), lg).
Proof.
  intros H1 H2 H3 H4. run_view. rewrite H1, H2. simpl. rewrite H3. simpl.
  destruct v; try reflexivity. discriminate.
Qed.

Lemma analyze_text_accepts (r : request) (lg : logger)
    (d : gmap (list N) json) (s : str) :
  is_json r = true -> get_json r = Ok (JDict d) ->
  d !! lit "text" = Some (JStr s) ->
  analyze_text r lg
  = (Ok (Response (analysis s (word_count_of s) (len s)) 200),
     lg ++ [Info_analyzed (word_count_of s) (len s)]).
Proof. intros H1 H2 H3. run_view. rewrite H1, H2. simpl. rewrite H3. reflexivity. Qed.

Lemma field_word_count (s : str) (wc cc : Z) (st : Z) :
  field "word_count" (Response (analysis s wc cc) st) = Some (JInt wc).
Proof. reflexivity. Qed.

Lemma field_character_count (s : str) (wc cc : Z) (st : Z) :
  field "character_count" (Response (analysis s wc cc) st) = Some (JInt cc).
Proof. reflexivity. Qed.

Lemma field_original_text (s : str) (wc cc : Z) (st : Z) :
  field "original_text" (Response (analysis s wc cc) st) = Some (JStr s).
Proof. reflexivity. Qed.

(** ** Routing *)


Lemma dispatch_analyze (r : request) :
  method r = "POST"%string -> path r = "/analyze"%string ->
  dispatch_request r = analyze_text r.
Proof.
  intros Hm Hp. unfold dispatch_request, match_request, match_path.
  rewrite Hm, Hp. reflexivity.
Qed.

Lemma find_all_false {A} (f : A -> bool) (l : list A) :
  (forall x, In x l -> f x = false) -> find f l = None.
Proof.
  induction l as [|a l IH]; intros H; simpl; [reflexivity|].
  rewrite (H a (or_introl eq_refl)). apply IH.
  intros x Hx. apply H. right. exact Hx.
Qed.

(** The routing table: the two paths of [app.py], the paths under
    [/static/], the other paths Werkzeug matches as they stand, and the
    paths left to it. *)
Lemma match_request_cases (r : request) :
  (path r = "/health"%string /\
   match_request r
   = if mem (method r) ["GET"; "HEAD"; "OPTIONS"]%string
     then Matched health_rule else MethodNotAllowed)
  \/
  (path r = "/analyze"%string /\
   match_request r
   = if mem (method r) ["POST"; "OPTIONS"]%string
     then Matched analyze_rule else MethodNotAllowed)
  \/
  (match_path (path r) = Some [static_rule] /\
   match_request r
   = if mem (method r) ["GET"; "HEAD"; "OPTIONS"]%string
     then Matched static_rule else MethodNotAllowed)
  \/
  (match_path (path r) = Some [] /\ match_request r = NotFound)
  \/
  (match_path (path r) = None /\
   match_request r
   = match flask_own r with
     | RaisesNotFound => NotFound
     | RaisesMethodNotAllowed => MethodNotAllowed
     | Answers status data => Answered status data
     end).
Proof.
  unfold match_request.
  destruct (String.eqb_spec "/health" (path r)) as [H1|H1].
  - left. split; [congruence|]. rewrite <- H1.
    change (match_path "/health") with (Some [health_rule]). cbn [find].
    change (allowed_methods health_rule)
      with ["GET"; "HEAD"; "OPTIONS"]%string.
    destruct (mem (method r) _); reflexivity.
  - destruct (String.eqb_spec "/analyze" (path r)) as [H2|H2].
    + right. left. split; [congruence|]. rewrite <- H2.
      change (match_path "/analyze") with (Some [analyze_rule]). cbn [find].
      change (allowed_methods analyze_rule) with ["POST"; "OPTIONS"]%string.
      destruct (mem (method r) _); reflexivity.
    + right. right.
      apply String.eqb_neq in H1, H2.
      unfold match_path, url_map.
      destruct (simple_path (path r)); [|right; right; split; reflexivity].
      cbn [List.filter rule_path static_rule health_rule analyze_rule matches].
      rewrite H1, H2.
      destruct (String.prefix "/static/" (path r)
                && (String.length "/static/" <? String.length (path r))%nat).
      * left. split; [reflexivity|]. cbn [find].
        change (allowed_methods static_rule)
          with ["GET"; "HEAD"; "OPTIONS"]%string.
        destruct (mem (method r) _); reflexivity.
      * right. left. split; reflexivity.
Qed.

(** No view and no error handler raises. *)
Lemma dispatch_request_returns (r : request) (lg : logger) :
  exists resp lg', dispatch_request r lg = (Ok resp, lg').
Proof.
  unfold dispatch_request.
  destruct (match_request r) as [rl| | |st d]; [|unfold ret; eauto..].
  destruct (String.eqb _ _); [unfold ret; eauto|].
  destruct (rule_endpoint rl); simpl.
  - unfold send_static_file, ret. destruct (flask_own r); eauto.
  - unfold health_check, ret. eauto.
  - apply analyze_text_returns.
Qed.

Lemma analyze_text_response_independent (r : request) (lg lg' : logger) :
  fst (analyze_text r lg) = fst (analyze_text r lg').
Proof.
  run_view.
  destruct (is_json r); simpl; [|reflexivity].
  destruct (get_json r) as [data|e]; [|reflexivity].
  destruct data as [| | | | s | l | d]; simpl; try reflexivity.
  - destruct (substring_of _ s); reflexivity.
  - destruct (existsb _ l); reflexivity.
  - destruct (d !! lit "text") as [v|]; simpl; [|reflexivity].
    destruct v; reflexivity.
Qed.

Lemma dispatch_request_response_independent (r : request) (lg lg' : logger) :
  fst (dispatch_request r lg) = fst (dispatch_request r lg').
Proof.
  unfold dispatch_request.
  destruct (match_request r) as [rl| | |st d]; try reflexivity.
  destruct (String.eqb _ _); [reflexivity|].
  destruct (rule_endpoint rl); simpl.
  - unfold send_static_file. destruct (flask_own r); reflexivity.
  - reflexivity.
  - apply analyze_text_response_independent.
Qed.

(** ** Character counts and bytes *)

Lemma utf8_size_pos (c : N) : 1 <= utf8_size c.
Proof. unfold utf8_size. repeat case_match; lia. Qed.

Lemma utf8_length_cons (c : N) (s : str) :
  utf8_length (c :: s) = utf8_size c + utf8_length s.
Proof. reflexivity. Qed.

Lemma len_le_utf8_length (s : str) : len s <= utf8_length s.
Proof.
  unfold len. induction s as [|c s IH].
  - reflexivity.
  - rewrite utf8_length_cons, length_cons.
    pose proof (utf8_size_pos c). lia.
Qed.

(** One code point outside ASCII already tells the two counts apart. *)
Lemma len_not_utf8_length : len [233%N] = 1 /\ utf8_length [233%N] = 2.
Proof. split; reflexivity. Qed.

(** Served in any sequence, each request gets the response it gets alone. *)
Lemma serve_pointwise (rs : list request) (lg : logger) :
  fst (serve rs lg) = map (fun r => fst (dispatch_request r [])) rs.
Proof.
  revert lg. induction rs as [|r rs IH]; intros lg; simpl; [reflexivity|].
  pose proof (dispatch_request_response_independent r lg []) as Hr.
  destruct (dispatch_request r lg) as [resp lg'].
  specialize (IH lg'). destruct (serve rs lg') as [resps lg''].
  simpl in *. congruence.
Qed.

(** * The claims *)

(** C1 (as amended).  [POST /analyze] with a JSON content type and the body
    [{"text": "I love cloud engineering!"}] returns status 200 and the body
    [{"original_text": "I love cloud engineering!", "word_count": 4,
    "character_count": 25}]: the text has 25 characters. *)
Theorem analyze_example (lg : logger) :
  dispatch_request example_request lg
  = (Ok (Response (analysis example_text 4 25) 200),
     lg ++ [Info_analyzed 4 25]).
Proof.
  rewrite dispatch_analyze by reflexivity.
  rewrite (analyze_text_accepts example_request lg
             (list_to_map [(lit "text", JStr example_text)]) example_text)
    by reflexivity.
  reflexivity.
Qed.

(** C1 as stated fails: the response to the example request is not the one
    with [character_count] 26. *)
Lemma analyze_example_not_26 :
  fst (dispatch_request example_request [])
  <> Ok (Response (analysis example_text 4 26) 200).
Proof.
  intros H.
  apply (f_equal (fun x => match x with
                           | Ok resp => field "character_count" resp
                           | Raise _ => None
                           end)) in H.
  vm_compute in H. discriminate H.
Qed.

(** C2.  For a text [s] the analyze operation accepts, the [word_count] of
    the response is the number of whitespace-delimited non-empty tokens of
    [s], and it is 0 when [s] is empty or whitespace only. *)
Theorem word_count_is_token_count (r : request) (lg : logger)
    (d : gmap (list N) json) (s : str) :
  is_json r = true -> get_json r = Ok (JDict d) ->
  d !! lit "text" = Some (JStr s) ->
  exists resp lg',
    analyze_text r lg = (Ok resp, lg') /\
    status_of resp = 200 /\
    field "word_count" resp = Some (JInt (Z.of_nat (length (tokens s)))) /\
    (forallb isspace s = true -> field "word_count" resp = Some (JInt 0)).
Proof.
  intros H1 H2 H3. eexists _, _. split; [exact (analyze_text_accepts r lg d s H1 H2 H3)|].
  split; [reflexivity|]. rewrite field_word_count. split.
  - rewrite word_count_of_tokens. reflexivity.
  - intros Hs. rewrite (word_count_of_all_space s Hs). reflexivity.
Qed.

Lemma word_count_is_token_count_witness :
  (exists resp lg',
     analyze_text example_request [] = (Ok resp, lg') /\
     status_of resp = 200 /\
     field "word_count" resp
     = Some (JInt (Z.of_nat (length (tokens example_text)))) /\
     (forallb isspace example_text = true ->
      field "word_count" resp = Some (JInt 0)))
  /\ length (tokens example_text) = 4%nat.
Proof.
  split.
  - apply (word_count_is_token_count example_request []
             (list_to_map [(lit "text", JStr example_text)]) example_text);
      reflexivity.
  - reflexivity.
Defined.

(** C3.  For a text [s] the analyze operation accepts, the
    [character_count] of the response is the length of [s] as Python counts
    it: the number of code points. *)
Theorem character_count_is_len (r : request) (lg : logger)
    (d : gmap (list N) json) (s : str) :
  is_json r = true -> get_json r = Ok (JDict d) ->
  d !! lit "text" = Some (JStr s) ->
  exists resp lg',
    analyze_text r lg = (Ok resp, lg') /\
    status_of resp = 200 /\
    field "original_text" resp = Some (JStr s) /\
    field "character_count" resp = Some (JInt (Z.of_nat (length s))).
Proof.
  intros H1 H2 H3. eexists _, _. split; [exact (analyze_text_accepts r lg d s H1 H2 H3)|].
  repeat split.
Qed.

Lemma character_count_is_len_witness :
  exists resp lg',
    analyze_text (post_json (Ok (dict [(lit "text", JStr [233%N])]))) []
    = (Ok resp, lg') /\
    status_of resp = 200 /\
    field "original_text" resp = Some (JStr [233%N]) /\
    field "character_count" resp = Some (JInt 1).
Proof.
  apply (character_count_is_len
           (post_json (Ok (dict [(lit "text", JStr [233%N])]))) []
           (list_to_map [(lit "text", JStr [233%N])]) [233%N]);
    reflexivity.
Defined.

(** C4 fails on the code.  [POST /analyze] with a JSON content type and a
    body that does not parse: [request.get_json()] raises inside the [try]
    block, the [except] clause logs the error and the response is 500
    [{"error": "Internal server error"}], not a 400.  The body [null]
    parses, to [None]; the test ['text' not in data] raises on it and the
    response is the same 500.  Nothing escapes the handler. *)
Theorem analyze_unparsable_body (lg : logger) :
  dispatch_request unparsable_request lg
  = (Ok (Response (error_body "Internal server error") 500),
     lg ++ [Error_processing BadRequest])
  /\
  dispatch_request null_request lg
  = (Ok (Response (error_body "Internal server error") 500),
     lg ++ [Error_processing TypeError]).
Proof.
  split; rewrite dispatch_analyze by reflexivity.
  - apply analyze_text_raises; reflexivity.
  - reflexivity.
Qed.

(** A body that parses to an empty list is answered like a missing
    field. *)
Lemma analyze_empty_list_body (lg : logger) :
  dispatch_request empty_list_request lg
  = (Ok (Response (error_body "Missing required field: text") 400), lg).
Proof. rewrite dispatch_analyze by reflexivity. reflexivity. Qed.

(** C5 (as amended).  [POST /analyze] with a declared media type that is
    neither [application/json] nor of the form [application/*+json]
    returns 400 [{"error": "Content-Type must be application/json"}],
    whatever the body. *)
Theorem analyze_rejects_non_json (r : request) (lg : logger) :
  method r = "POST"%string -> path r = "/analyze"%string ->
  mimetype r <> "application/json"%string ->
  String.prefix "application/" (mimetype r) && ends_with (mimetype r) "+json"
  = false ->
  dispatch_request r lg
  = (Ok (Response (error_body "Content-Type must be application/json") 400),
     lg).
Proof.
  intros Hm Hp Hj Hs. rewrite (dispatch_analyze r Hm Hp).
  apply analyze_text_not_json. unfold is_json. cbv zeta.
  apply String.eqb_neq in Hj. rewrite Hj, Hs. reflexivity.
Qed.

Lemma analyze_rejects_non_json_witness :
  dispatch_request plain_request []
  = (Ok (Response (error_body "Content-Type must be application/json") 400),
     []).
Proof.
  apply (analyze_rejects_non_json plain_request []);
    [reflexivity | reflexivity | discriminate | reflexivity].
Defined.

(** C5 as stated fails: [application/ld+json] is not [application/json],
    and the example text sent under it is analysed and answered 200. *)
Lemma analyze_accepts_ld_json :
  mimetype ld_json_request <> "application/json"%string
  /\
  dispatch_request ld_json_request []
  = (Ok (Response (analysis example_text 4 25) 200), [Info_analyzed 4 25])
  /\
  fst (dispatch_request ld_json_request [])
  <> Ok (Response (error_body "Content-Type must be application/json") 400).
Proof.
  assert (dispatch_request ld_json_request []
          = (Ok (Response (analysis example_text 4 25) 200),
             [Info_analyzed 4 25])) as H.
  { rewrite dispatch_analyze by reflexivity.
    rewrite (analyze_text_accepts ld_json_request []
               (list_to_map [(lit "text", JStr example_text)]) example_text)
      by reflexivity.
    reflexivity. }
  split; [discriminate|]. split; [exact H|].
  rewrite H. simpl. intros E. injection E as E _. discriminate E.
Qed.

(** C6.  [POST /analyze] with a body that parses to a JSON object: without
    the key [text] the response is 400
    [{"error": "Missing required field: text"}]; with the key and a value
    that is not a string it is 400
    [{"error": "Field 'text' must be a string"}].  The key is looked for
    first, and in neither case is anything raised or logged. *)
Theorem analyze_validates_text (r : request) (lg : logger)
    (d : gmap (list N) json) :
  method r = "POST"%string -> path r = "/analyze"%string ->
  is_json r = true -> get_json r = Ok (JDict d) ->
  (d !! lit "text" = None ->
   dispatch_request r lg
   = (Ok (Response (error_body "Missing required field: text") 400), lg))
  /\
  (forall v, d !! lit "text" = Some v -> isinstance_str v = false ->
   dispatch_request r lg
   = (Ok (Response (error_body "Field 'text' must be a string") 400), lg)).
Proof.
  intros Hm Hp Hj Hd. rewrite (dispatch_analyze r Hm Hp). split.
  - intros Hk. exact (analyze_text_missing r lg d Hj Hd Hk).
  - intros v Hk Hv. exact (analyze_text_not_str r lg d v Hj Hd Hk Hv).
Qed.

Lemma analyze_validates_text_witness :
  dispatch_request empty_object_request []
  = (Ok (Response (error_body "Missing required field: text") 400), [])
  /\
  dispatch_request number_request []
  = (Ok (Response (error_body "Field 'text' must be a string") 400), []).
Proof.
  split.
  - apply (analyze_validates_text empty_object_request [] (list_to_map []));
      reflexivity.
  - apply (analyze_validates_text number_request []
             (list_to_map [(lit "text", JInt 123)])
             eq_refl eq_refl eq_refl eq_refl)
      with (v := JInt 123); reflexivity.
Defined.

(** C7.  A request to a path no rule matches gets 404
    [{"error": "Endpoint not found"}]; a request to a path a rule matches,
    with a method no such rule allows, gets 405
    [{"error": "Method not allowed"}].  Where the matching of the path is
    left to Werkzeug, the same two answers are given to the routing error
    it raises. *)
Theorem unmatched_requests (r : request) (lg : logger) :
  (match_path (path r) = Some [] ->
   dispatch_request r lg
   = (Ok (Response (error_body "Endpoint not found") 404), lg))
  /\
  (forall rs, match_path (path r) = Some rs -> rs <> [] ->
   (forall rl, In rl rs -> mem (method r) (allowed_methods rl) = false) ->
   dispatch_request r lg
   = (Ok (Response (error_body "Method not allowed") 405), lg))
  /\
  (match_path (path r) = None -> flask_own r = RaisesNotFound ->
   dispatch_request r lg
   = (Ok (Response (error_body "Endpoint not found") 404), lg))
  /\
  (match_path (path r) = None -> flask_own r = RaisesMethodNotAllowed ->
   dispatch_request r lg
   = (Ok (Response (error_body "Method not allowed") 405), lg)).
Proof.
  unfold dispatch_request, match_request. repeat split.
  - intros H. rewrite H. reflexivity.
  - intros rs H Hne Hall. rewrite H.
    destruct rs as [|rl rs]; [contradiction|].
    rewrite (find_all_false _ _ Hall). reflexivity.
  - intros H Ho. rewrite H, Ho. reflexivity.
  - intros H Ho. rewrite H, Ho. reflexivity.
Qed.

Lemma unmatched_requests_witness :
  dispatch_request (bare_request "GET" "/nonexistent" RaisesNotFound) []
  = (Ok (Response (error_body "Endpoint not found") 404), [])
  /\
  dispatch_request (bare_request "GET" "/analyze" RaisesNotFound) []
  = (Ok (Response (error_body "Method not allowed") 405), [])
  /\
  dispatch_request (bare_request "POST" "/static/x" RaisesNotFound) []
  = (Ok (Response (error_body "Method not allowed") 405), [])
  /\
  dispatch_request (bare_request "GET" "/health//" RaisesNotFound) []
  = (Ok (Response (error_body "Endpoint not found") 404), [])
  /\
  dispatch_request
    (bare_request "POST" "/static//x" RaisesMethodNotAllowed) []
  = (Ok (Response (error_body "Method not allowed") 405), []).
Proof.
  split; [|split; [|split; [|split]]].
  - destruct (unmatched_requests
                (bare_request "GET" "/nonexistent" RaisesNotFound) [])
      as (H & _).
    apply H. reflexivity.
  - destruct (unmatched_requests
                (bare_request "GET" "/analyze" RaisesNotFound) [])
      as (_ & H & _).
    apply (H [analyze_rule]).
    + reflexivity.
    + discriminate.
    + intros rl [<-|[]]. reflexivity.
  - destruct (unmatched_requests
                (bare_request "POST" "/static/x" RaisesNotFound) [])
      as (_ & H & _).
    apply (H [static_rule]).
    + reflexivity.
    + discriminate.
    + intros rl [<-|[]]. reflexivity.
  - destruct (unmatched_requests
                (bare_request "GET" "/health//" RaisesNotFound) [])
      as (_ & _ & H & _).
    apply H; reflexivity.
  - destruct (unmatched_requests
                (bare_request "POST" "/static//x" RaisesMethodNotAllowed) [])
      as (_ & _ & _ & H).
    apply H; reflexivity.
Defined.



(** C9.  The response to a request does not depend on what the process has
    logged before: served twice, with anything served in between, the same
    request gets the same response. *)
Theorem analyze_stateless (r : request) (lg lg' : logger) :
  fst (analyze_text r lg) = fst (analyze_text r lg')
  /\ fst (dispatch_request r lg) = fst (dispatch_request r lg')
  /\ (forall between : list request,
        exists resp resps,
          fst (serve (r :: between ++ [r]) lg) = resp :: resps ++ [resp]).
Proof.
  split; [apply analyze_text_response_independent|].
  split; [apply dispatch_request_response_independent|].
  intros between. rewrite serve_pointwise.
  exists (fst (dispatch_request r [])),
         (map (fun r => fst (dispatch_request r [])) between).
  simpl. rewrite map_app. reflexivity.
Qed.

(** C10.  For a text the analyze operation accepts, the [word_count] of the
    response is at most its [character_count]. *)
Theorem word_count_le_character_count (r : request) (lg : logger)
    (d : gmap (list N) json) (s : str) :
  is_json r = true -> get_json r = Ok (JDict d) ->
  d !! lit "text" = Some (JStr s) ->
  exists resp lg' wc cc,
    analyze_text r lg = (Ok resp, lg') /\
    field "word_count" resp = Some (JInt wc) /\
    field "character_count" resp = Some (JInt cc) /\
    wc <= cc.
Proof.
  intros H1 H2 H3. eexists _, _, _, _.
  split; [exact (analyze_text_accepts r lg d s H1 H2 H3)|].
  split; [apply field_word_count|].
  split; [apply field_character_count|].
  apply word_count_of_le_len.
Qed.

Lemma word_count_le_character_count_witness :
  exists resp lg' wc cc,
    analyze_text (post_json (Ok (dict [(lit "text", JStr (lit "a b"))]))) []
    = (Ok resp, lg') /\
    field "word_count" resp = Some (JInt wc) /\
    field "character_count" resp = Some (JInt cc) /\
    wc <= cc.
Proof.
  apply (word_count_le_character_count
           (post_json (Ok (dict [(lit "text", JStr (lit "a b"))]))) []
           (list_to_map [(lit "text", JStr (lit "a b"))]) (lit "a b"));
    reflexivity.
Defined.

(** * Further properties of the code *)

(** ** The words [split] returns *)

Lemma forallb_snoc {A} (f : A -> bool) (l : list A) (a : A) :
  forallb f (l ++ [a]) = forallb f l && f a.
Proof. rewrite forallb_app. simpl. rewrite andb_true_r. reflexivity. Qed.

Lemma split_from_words (s cur : str) :
  forallb nonspace cur = true ->
  Forall (fun w => w <> [] /\ forallb nonspace w = true) (split_from cur s).
Proof.
  revert cur. induction s as [|c s IH]; intros cur Hcur; simpl.
  - destruct cur; [constructor|]. constructor; [|constructor].
    split; [discriminate|exact Hcur].
  - destruct (isspace c) eqn:Hc.
    + destruct cur as [|a cur]; [apply IH; reflexivity|].
      constructor; [split; [discriminate|exact Hcur]|].
      apply IH. reflexivity.
    + apply IH. rewrite forallb_snoc, Hcur. unfold nonspace. rewrite Hc.
      reflexivity.
Qed.

Lemma split_from_concat (s cur : str) :
  List.concat (split_from cur s) = cur ++ List.filter nonspace s.
Proof.
  revert cur. induction s as [|c s IH]; intros cur; simpl.
  - destruct cur; simpl; rewrite ?app_nil_r; reflexivity.
  - unfold nonspace at 1. destruct (isspace c); simpl.
    + destruct cur as [|a cur]; [apply IH|].
      simpl. rewrite (IH []). reflexivity.
    + rewrite IH, <- app_assoc. reflexivity.
Qed.

Lemma filter_nonspace_nil (s : str) :
  List.filter nonspace s = [] <-> forallb isspace s = true.
Proof.
  induction s as [|c s IH]; simpl; [tauto|].
  unfold nonspace at 1. destruct (isspace c); simpl; [exact IH|].
  split; discriminate.
Qed.

Lemma split_nil (s : str) : split s = [] <-> forallb isspace s = true.
Proof.
  split; [|apply split_all_space].
  intros H. apply filter_nonspace_nil.
  pose proof (split_from_concat s []) as Hc. fold (split s) in Hc.
  rewrite H in Hc. simpl in Hc. symmetry. exact Hc.
Qed.

(** Two scans with a word in progress close the same number of words. *)
Lemma split_from_length_cur (s cur cur' : str) :
  truthy cur = truthy cur' ->
  length (split_from cur s) = length (split_from cur' s).
Proof.
  revert cur cur'. induction s as [|c s IH]; intros cur cur' H; simpl.
  - destruct cur, cur'; simpl in *; congruence.
  - destruct (isspace c).
    + destruct cur, cur'; simpl in *; congruence.
    + apply IH. rewrite !truthy_app_r. reflexivity.
Qed.

(** Reading [s] then [t]: the words closed within [s], then the scan of
    [t] from the word left open at the end of [s]. *)
Lemma split_from_app (s t cur : str) :
  exists (ws : list str) (cur' : str),
    split_from cur (s ++ t) = ws ++ split_from cur' t /\
    split_from cur s = ws ++ (if truthy cur' then [cur'] else []).
Proof.
  revert cur. induction s as [|c s IH]; intros cur; simpl.
  - exists [], cur. split; [reflexivity|]. destruct cur; reflexivity.
  - destruct (isspace c).
    + destruct (IH []) as (ws & cur' & H1 & H2).
      destruct cur as [|a cur].
      * exists ws, cur'. split; assumption.
      * exists ((a :: cur) :: ws), cur'. rewrite H1, H2. split; reflexivity.
    + apply IH.
Qed.

Lemma split_from_all_space (ws cur : str) :
  forallb isspace ws = true ->
  split_from cur ws = if truthy cur then [cur] else [].
Proof.
  revert cur. induction ws as [|c ws IH]; intros cur H; simpl.
  - destruct cur; reflexivity.
  - simpl in H. apply andb_true_iff in H as [Hc Hws]. rewrite Hc.
    destruct cur; rewrite (IH [] Hws); reflexivity.
Qed.

Lemma split_app_space_l (ws s : str) :
  forallb isspace ws = true -> split (ws ++ s) = split s.
Proof.
  unfold split. induction ws as [|c ws IH]; intros H; simpl; [reflexivity|].
  simpl in H. apply andb_true_iff in H as [Hc Hws]. rewrite Hc. auto.
Qed.

Lemma split_app_space_r (s ws : str) :
  forallb isspace ws = true -> split (s ++ ws) = split s.
Proof.
  intros H. unfold split.
  destruct (split_from_app s ws []) as (w & cur' & H1 & H2).
  rewrite H1, H2, (split_from_all_space ws cur' H). reflexivity.
Qed.

Lemma lstrip_decomp (s : str) :
  exists ws, forallb isspace ws = true /\ s = ws ++ lstrip s.
Proof.
  induction s as [|c s (ws & Hws & Hs)]; simpl.
  - exists []. split; reflexivity.
  - destruct (isspace c) eqn:Hc.
    + exists (c :: ws). simpl. rewrite Hc, Hws. split; [reflexivity|].
      f_equal. exact Hs.
    + exists []. split; reflexivity.
Qed.

Lemma rstrip_decomp (s : str) :
  exists ws, forallb isspace ws = true /\ s = rstrip s ++ ws.
Proof.
  unfold rstrip. destruct (lstrip_decomp (rev s)) as (ws & Hws & Hs).
  exists (rev ws). rewrite forallb_rev. split; [exact Hws|].
  rewrite <- rev_app_distr, <- Hs, rev_involutive. reflexivity.
Qed.

Lemma split_from_twice_length (s cur : str) :
  (2 * length (split_from cur s)
   <= length s + (if truthy cur then 2 else 1))%nat.
Proof.
  revert cur. induction s as [|c s IH]; intros cur; simpl.
  - destruct cur; simpl; lia.
  - destruct (isspace c).
    + specialize (IH []). simpl in IH. destruct cur; simpl; lia.
    + specialize (IH (cur ++ [c])). rewrite truthy_app_r in IH.
      destruct (truthy cur); lia.
Qed.

(** X1.  Every word [text.split()] returns is non-empty and holds no
    whitespace character. *)
Theorem split_words (s : str) :
  Forall (fun w => w <> [] /\ forallb nonspace w = true) (split s).
Proof. apply split_from_words. reflexivity. Qed.

(** X2.  The words of [text.split()], put end to end, are the text with
    its whitespace characters removed: no character of a word is lost,
    added or moved. *)
Theorem split_concat (s : str) :
  List.concat (split s) = List.filter nonspace s.
Proof. apply (split_from_concat s []). Qed.

(** X3.  The word count is 0 exactly for a text that is empty or holds
    whitespace only. *)
Theorem word_count_zero_iff (s : str) :
  word_count_of s = 0 <-> forallb isspace s = true.
Proof.
  rewrite word_count_of_split, <- split_nil. unfold len.
  destruct (split s); simpl; split; intros H; try reflexivity;
    try discriminate; lia.
Qed.

(** X4.  The guard [if text.strip()] of the word count is true exactly
    when [text.split()] has a word, so the [else 0] branch is taken only
    where [len(text.split())] is 0 as well. *)
Theorem strip_guard_split (s : str) :
  (truthy (strip s) = true <-> split s <> [])
  /\ word_count_of s = len (split s).
Proof.
  split; [|apply word_count_of_split].
  rewrite split_nil, <- strip_nil, <- truthy_false.
  destruct (truthy (strip s)); split; congruence.
Qed.

(** X5.  Words need separators: twice the word count is at most the
    character count plus one. *)
Theorem word_count_twice (s : str) : 2 * word_count_of s <= len s + 1.
Proof.
  rewrite word_count_of_split. unfold len, split.
  pose proof (split_from_twice_length s []) as H. simpl in H. lia.
Qed.

(** X6.  Joining two texts joins at most one pair of words: the word count
    of [s + t] is the sum of the two word counts, or one less. *)
Theorem word_count_app (s t : str) :
  word_count_of s + word_count_of t - 1 <= word_count_of (s ++ t)
  /\ word_count_of (s ++ t) <= word_count_of s + word_count_of t.
Proof.
  rewrite !word_count_of_split. unfold len, split.
  destruct (split_from_app s t []) as (ws & cur' & H1 & H2).
  rewrite H1, H2, !length_app.
  destruct cur' as [|a cur']; simpl truthy; cbv iota; simpl length.
  - lia.
  - assert (length (split_from [] t) <= length (split_from (a :: cur') t)
            <= length (split_from [] t) + 1)%nat as Hb.
    { destruct t as [|c t]; simpl; [lia|].
      destruct (isspace c); simpl; [lia|].
      rewrite (split_from_length_cur t (a :: cur' ++ [c]) [c]) by reflexivity.
      lia. }
    lia.
Qed.

(** X7.  Across a whitespace character the word counts add up. *)
Theorem word_count_sep (s t : str) (c : N) :
  isspace c = true ->
  word_count_of (s ++ c :: t) = word_count_of s + word_count_of t.
Proof.
  intros Hc. rewrite !word_count_of_split. unfold len, split.
  destruct (split_from_app s (c :: t) []) as (ws & cur' & H1 & H2).
  rewrite H1, H2, !length_app. simpl split_from. rewrite Hc.
  destruct cur'; simpl; lia.
Qed.

Lemma word_count_sep_witness :
  word_count_of (lit "ab" ++ 160%N :: lit "cd")
  = word_count_of (lit "ab") + word_count_of (lit "cd").
Proof. apply (word_count_sep (lit "ab") (lit "cd") 160%N). reflexivity. Defined.

(** X8.  Leading and trailing whitespace does not change the words:
    [text.strip().split()] is [text.split()]. *)
Theorem split_strip (s : str) :
  split (strip s) = split s /\ word_count_of (strip s) = word_count_of s.
Proof.
  assert (split (strip s) = split s) as H.
  { unfold strip.
    destruct (lstrip_decomp s) as (ws1 & Hws1 & Hs1).
    destruct (rstrip_decomp (lstrip s)) as (ws2 & Hws2 & Hs2).
    rewrite Hs1 at 2. rewrite (split_app_space_l ws1 _ Hws1).
    rewrite Hs2 at 2. rewrite (split_app_space_r _ ws2 Hws2). reflexivity. }
  split; [exact H|]. rewrite !word_count_of_split, H. reflexivity.
Qed.

(** ** The outcomes of [analyze_text] *)

(** The handler, one case per [return]. *)
Lemma analyze_text_unfold (r : request) (lg : logger) :
  analyze_text r lg =
  if is_json r then
    match get_json r with
    | Raise e => (Ok internal_error, lg ++ [Error_processing e])
    | Ok (JDict d) =>
        match d !! lit "text" with
        | None => (Ok missing_field, lg)
        | Some (JStr s) =>
            (Ok (analyzed s),
             lg ++ [Info_analyzed (word_count_of s) (len s)])
        | Some _ => (Ok not_a_string, lg)
        end
    | Ok (JList l) =>
        if existsb (eq_str (lit "text")) l
        then (Ok internal_error, lg ++ [Error_processing TypeError])
        else (Ok missing_field, lg)
    | Ok (JStr s) =>
        if substring_of (lit "text") s
        then (Ok internal_error, lg ++ [Error_processing TypeError])
        else (Ok missing_field, lg)
    | Ok _ => (Ok internal_error, lg ++ [Error_processing TypeError])
    end
  else (Ok bad_content_type, lg).
Proof.
  run_view.
  destruct (is_json r); simpl; [|reflexivity].
  destruct (get_json r) as [data|e]; [|reflexivity].
  destruct data as [| | | | s | l | d]; simpl; try reflexivity.
  - destruct (substring_of _ s); reflexivity.
  - destruct (existsb _ l); reflexivity.
  - destruct (d !! lit "text") as [v|]; simpl; [|reflexivity].
    destruct v; reflexivity.
Qed.

Lemma eq_str_true (a : str) (v : json) : eq_str a v = true <-> v = JStr a.
Proof.
  destruct v; simpl; try (split; [discriminate|congruence]).
  unfold str_eqb. rewrite bool_decide_eq_true. split; congruence.
Qed.

Lemma existsb_eq_str (a : str) (l : list json) :
  existsb (eq_str a) l = true <-> In (JStr a) l.
Proof.
  rewrite existsb_exists. split.
  - intros (v & Hv & He). apply eq_str_true in He. subst v. exact Hv.
  - intros H. exists (JStr a). split; [exact H|]. apply eq_str_true.
    reflexivity.
Qed.

Lemma startswith_prefix (s p : str) :
  startswith s p = true <-> exists post, s = p ++ post.
Proof.
  revert s. induction p as [|a p IH]; intros s; simpl.
  - split; [intros _; exists s; reflexivity|].
    intros _. destruct s; reflexivity.
  - destruct s as [|c s]; simpl.
    + split; [discriminate|intros (post & H); discriminate].
    + rewrite andb_true_iff, N.eqb_eq, IH. split.
      * intros (-> & post & ->). exists post. reflexivity.
      * intros (post & H). injection H as -> ->. split; [reflexivity|].
        exists post. reflexivity.
Qed.

Lemma substring_of_infix (needle s : str) :
  substring_of needle s = true <-> exists pre post, s = pre ++ needle ++ post.
Proof.
  induction s as [|c s IH].
  - cbn [substring_of]. rewrite orb_false_r, startswith_prefix. split.
    + intros (post & H). exists [], post. exact H.
    + intros (pre & post & H). destruct pre as [|a pre]; [|discriminate].
      exists post. exact H.
  - cbn [substring_of]. rewrite orb_true_iff, startswith_prefix, IH. split.
    + intros [(post & H)|(pre & post & H)].
      * exists [], post. exact H.
      * exists (c :: pre), post. rewrite H. reflexivity.
    + intros (pre & post & H). destruct pre as [|a pre].
      * left. exists post. exact H.
      * right. injection H as -> ->. exists pre, post. reflexivity.
Qed.

Ltac analyze_cases r :=
  rewrite analyze_text_unfold;
  destruct (is_json r) eqn:?;
  [ destruct (get_json r) as [[| | | | ? | ? | ?]|?] eqn:?;
    [ | | | |
      match goal with |- context [substring_of ?a ?b] =>
        destruct (substring_of a b) eqn:? end
    | match goal with |- context [existsb ?f ?l] =>
        destruct (existsb f l) eqn:? end
    | match goal with |- context [?d !! lit "text"] =>
        destruct (d !! lit "text") as [[| | | | ? | ? | ?]|] eqn:? end
    | ]
  | ].

(** X9.  [analyze_text] answers 200 exactly when the content type is JSON,
    the body parses to an object and its member [text] is a string. *)
Theorem analyze_text_ok_iff (r : request) (lg : logger) :
  (exists resp lg',
     analyze_text r lg = (Ok resp, lg') /\ status_of resp = 200)
  <->
  (is_json r = true /\
   exists d s, get_json r = Ok (JDict d) /\ d !! lit "text" = Some (JStr s)).
Proof.
  split.
  - analyze_cases r; intros (resp & lg' & H & Hs);
      injection H as <- <-; try discriminate Hs.
    split; [reflexivity|]. eauto.
  - intros (Hj & d & s & Hd & Hk).
    rewrite (analyze_text_accepts r lg d s Hj Hd Hk).
    eexists _, _. split; reflexivity.
Qed.

(** X10.  [analyze_text] never raises and keeps the log it is given.  It
    answers 400 and writes nothing; or 200, writing one info record with
    the two counts of the response; or 500
    [{"error": "Internal server error"}], writing one error record. *)
Theorem analyze_text_outcomes (r : request) (lg : logger) :
  (exists resp,
     analyze_text r lg = (Ok resp, lg) /\ status_of resp = 400)
  \/
  (exists s,
     analyze_text r lg
     = (Ok (Response (analysis s (word_count_of s) (len s)) 200),
        lg ++ [Info_analyzed (word_count_of s) (len s)]))
  \/
  (exists e,
     analyze_text r lg
     = (Ok (Response (error_body "Internal server error") 500),
        lg ++ [Error_processing e])).
Proof.
  analyze_cases r;
    first [ left; eexists; split; reflexivity
          | right; left; eexists; reflexivity
          | right; right; eexists; reflexivity ].
Qed.

(** X11.  A JSON body that is [null], a boolean or a number is answered
    500: the membership test raises [TypeError], which is logged. *)
Theorem analyze_text_scalar_body (r : request) (lg : logger) (data : json) :
  is_json r = true -> get_json r = Ok data ->
  match data with
  | JNull | JBool _ | JInt _ | JFloat _ => True
  | _ => False
  end ->
  analyze_text r lg
  = (Ok (Response (error_body "Internal server error") 500),
     lg ++ [Error_processing TypeError]).
Proof.
  intros Hj Hd Hs. rewrite analyze_text_unfold, Hj, Hd.
  destruct data; try contradiction; reflexivity.
Qed.

Lemma analyze_text_scalar_body_witness :
  analyze_text (post_json (Ok (JInt 123))) []
  = (Ok (Response (error_body "Internal server error") 500),
     [Error_processing TypeError]).
Proof.
  apply (analyze_text_scalar_body (post_json (Ok (JInt 123))) [] (JInt 123));
    [reflexivity | reflexivity | exact I].
Defined.

(** X12.  A JSON body that is a list is taken for a missing field (400)
    unless the string ["text"] is one of its elements; then the lookup
    [data['text']] raises and the answer is 500. *)
Theorem analyze_text_list_body (r : request) (lg : logger) (l : list json) :
  is_json r = true -> get_json r = Ok (JList l) ->
  (~ In (JStr (lit "text")) l ->
   analyze_text r lg
   = (Ok (Response (error_body "Missing required field: text") 400), lg))
  /\
  (In (JStr (lit "text")) l ->
   analyze_text r lg
   = (Ok (Response (error_body "Internal server error") 500),
      lg ++ [Error_processing TypeError])).
Proof.
  intros Hj Hd. rewrite analyze_text_unfold, Hj, Hd.
  destruct (existsb (eq_str (lit "text")) l) eqn:He.
  - apply existsb_eq_str in He. split; [contradiction|reflexivity].
  - split; [reflexivity|]. intros Hin. apply existsb_eq_str in Hin.
    congruence.
Qed.

Lemma analyze_text_list_body_witness :
  analyze_text (post_json (Ok (JList [JInt 1]))) []
  = (Ok (Response (error_body "Missing required field: text") 400), [])
  /\
  analyze_text (post_json (Ok (JList [JStr (lit "text")]))) []
  = (Ok (Response (error_body "Internal server error") 500),
     [Error_processing TypeError]).
Proof.
  split.
  - apply (analyze_text_list_body (post_json (Ok (JList [JInt 1]))) []
             [JInt 1] eq_refl eq_refl).
    intros [H|[]]. discriminate H.
  - apply (analyze_text_list_body
             (post_json (Ok (JList [JStr (lit "text")]))) []
             [JStr (lit "text")] eq_refl eq_refl).
    left. reflexivity.
Defined.

(** X13.  A JSON body that is a string is taken for a missing field (400)
    unless [text] occurs in it; then the lookup raises and the answer is
    500. *)
Theorem analyze_text_string_body (r : request) (lg : logger) (s : str) :
  is_json r = true -> get_json r = Ok (JStr s) ->
  ((~ exists pre post, s = pre ++ lit "text" ++ post) ->
   analyze_text r lg
   = (Ok (Response (error_body "Missing required field: text") 400), lg))
  /\
  ((exists pre post, s = pre ++ lit "text" ++ post) ->
   analyze_text r lg
   = (Ok (Response (error_body "Internal server error") 500),
      lg ++ [Error_processing TypeError])).
Proof.
  intros Hj Hd. rewrite analyze_text_unfold, Hj, Hd.
  destruct (substring_of (lit "text") s) eqn:He.
  - apply substring_of_infix in He. split; [contradiction|reflexivity].
  - split; [reflexivity|]. intros Hin. apply substring_of_infix in Hin.
    congruence.
Qed.

Lemma analyze_text_string_body_witness :
  analyze_text (post_json (Ok (JStr (lit "hello")))) []
  = (Ok (Response (error_body "Missing required field: text") 400), [])
  /\
  analyze_text (post_json (Ok (JStr (lit "my texts")))) []
  = (Ok (Response (error_body "Internal server error") 500),
     [Error_processing TypeError]).
Proof.
  split.
  - apply (analyze_text_string_body (post_json (Ok (JStr (lit "hello")))) []
             (lit "hello") eq_refl eq_refl).
    intros H. apply substring_of_infix in H. discriminate H.
  - apply (analyze_text_string_body
             (post_json (Ok (JStr (lit "my texts")))) []
             (lit "my texts") eq_refl eq_refl).
    exists (lit "my "), (lit "s"). reflexivity.
Defined.

(** X14.  Members of the body other than [text] are ignored: two JSON
    requests whose objects agree on [text] get the same answer. *)
Theorem analyze_text_other_keys (r1 r2 : request) (lg : logger)
    (d1 d2 : gmap (list N) json) :
  is_json r1 = true -> is_json r2 = true ->
  get_json r1 = Ok (JDict d1) -> get_json r2 = Ok (JDict d2) ->
  d1 !! lit "text" = d2 !! lit "text" ->
  analyze_text r1 lg = analyze_text r2 lg.
Proof.
  intros H1 H2 Hd1 Hd2 Hk.
  rewrite !analyze_text_unfold, H1, H2, Hd1, Hd2, Hk. reflexivity.
Qed.

Lemma analyze_text_other_keys_witness :
  analyze_text
    (post_json (Ok (dict [(lit "text", JStr (lit "a b"));
                          (lit "lang", JStr (lit "en"))]))) []
  = analyze_text (post_json (Ok (dict [(lit "text", JStr (lit "a b"))]))) [].
Proof.
  apply (analyze_text_other_keys
           (post_json (Ok (dict [(lit "text", JStr (lit "a b"));
                                 (lit "lang", JStr (lit "en"))])))
           (post_json (Ok (dict [(lit "text", JStr (lit "a b"))]))) []
           (list_to_map [(lit "text", JStr (lit "a b"));
                         (lit "lang", JStr (lit "en"))])
           (list_to_map [(lit "text", JStr (lit "a b"))]));
    reflexivity.
Defined.

(** ** Routing, the log and error bodies *)

Lemma mem_In (x : string) (l : list string) : mem x l = true <-> In x l.
Proof.
  unfold mem. rewrite existsb_exists. split.
  - intros (y & Hy & He). apply String.eqb_eq in He. subst y. exact Hy.
  - intros H. exists x. split; [exact H|]. apply String.eqb_refl.
Qed.

Lemma mem_false (x : string) (l : list string) : mem x l = false <-> ~ In x l.
Proof.
  rewrite <- mem_In. destruct (mem x l); split; congruence.
Qed.

Ltac route_methods r ms :=
  destruct (mem (method r) ms) eqn:?Hm;
  [ destruct (String.eqb (method r) "OPTIONS") eqn:?Ho;
    cbn [rule_endpoint view_function static_rule health_rule analyze_rule]
  | ].

Ltac route r :=
  unfold dispatch_request;
  destruct (match_request_cases r)
    as [(?Hp & ->)|[(?Hp & ->)|[(?Hp & ->)|[(?Hp & ->)|(?Hp & ->)]]]];
  [ route_methods r ["GET"; "HEAD"; "OPTIONS"]%string
  | route_methods r ["POST"; "OPTIONS"]%string
  | route_methods r ["GET"; "HEAD"; "OPTIONS"]%string;
    [ | unfold send_static_file; destruct (flask_own r) eqn:?Hown | ]
  |
  | destruct (flask_own r) eqn:?Hown ].

(** X15.  A response whose status is not 200 is either one of Flask's own
    (a static file, a redirect), or it has status 400, 404, 405 or 500 and
    a body that is an object with the one member [error]. *)
Theorem error_responses (r : request) (lg lg' : logger) (resp : response) :
  dispatch_request r lg = (Ok resp, lg') ->
  status_of resp <> 200 ->
  (exists status data, resp = FlaskResponse status data)
  \/
  (exists msg : string,
     resp = Response (error_body msg) (status_of resp) /\
     In (status_of resp) [400; 404; 405; 500]).
Proof.
  route r; try analyze_cases r; intros H Hs;
    injection H as <- <-; try (contradiction Hs; reflexivity);
    first [ left; eexists _, _; reflexivity
          | right; eexists; (split; [reflexivity|simpl; tauto]) ].
Qed.

Lemma error_responses_witness :
  (exists status data,
     Response (error_body "Missing required field: text") 400
     = FlaskResponse status data)
  \/
  (exists msg : string,
     Response (error_body "Missing required field: text") 400
     = Response (error_body msg)
         (status_of (Response (error_body "Missing required field: text") 400))
     /\
     In (status_of (Response (error_body "Missing required field: text") 400))
        [400; 404; 405; 500]).
Proof.
  apply (error_responses empty_object_request [] []
           (Response (error_body "Missing required field: text") 400)).
  - reflexivity.
  - discriminate.
Defined.

(** X16.  Only a [POST] to [/analyze] with a JSON content type writes to
    the log; every other request leaves it as it was. *)
Theorem only_analyze_logs (r : request) (lg lg' : logger)
    (res : result response) :
  dispatch_request r lg = (res, lg') -> lg' <> lg ->
  method r = "POST"%string /\ path r = "/analyze"%string /\ is_json r = true.
Proof.
  route r; try analyze_cases r; intros H Hl;
    injection H as <- <-; try (contradiction Hl; reflexivity);
    (split; [|split; [assumption|reflexivity]]);
    apply mem_In in Hm; apply String.eqb_neq in Ho;
    destruct Hm as [Hm|[Hm|[]]]; congruence.
Qed.

Lemma only_analyze_logs_witness :
  method example_request = "POST"%string /\
  path example_request = "/analyze"%string /\
  is_json example_request = true.
Proof.
  apply (only_analyze_logs example_request [] [Info_analyzed 4 25]
           (Ok (Response (analysis example_text 4 25) 200))).
  - reflexivity.
  - discriminate.
Defined.

Lemma dispatch_request_log (r : request) (lg : logger) :
  exists recs,
    snd (dispatch_request r lg) = lg ++ recs /\ (length recs <= 1)%nat.
Proof.
  route r; try analyze_cases r;
    first [ exists []; split; [symmetry; apply app_nil_r|simpl; lia]
          | eexists [_]; split; [reflexivity|simpl; lia] ].
Qed.

(** X17.  The log is append-only: after any sequence of requests it is the
    log before, followed by at most one record per request. *)
Theorem serve_log (rs : list request) (lg : logger) :
  exists recs,
    snd (serve rs lg) = lg ++ recs /\ (length recs <= length rs)%nat.
Proof.
  revert lg. induction rs as [|r rs IH]; intros lg; simpl.
  - exists []. split; [symmetry; apply app_nil_r|simpl; lia].
  - destruct (dispatch_request_log r lg) as (r1 & H1 & L1).
    destruct (dispatch_request r lg) as [resp lg1]. simpl in H1. subst lg1.
    destruct (IH (lg ++ r1)) as (r2 & H2 & L2).
    destruct (serve rs (lg ++ r1)) as [resps lg2]. simpl in H2 |- *.
    exists (r1 ++ r2). rewrite H2, app_assoc, length_app. split; [reflexivity|lia].
Qed.

(** X18.  A path without consecutive slashes or newline that is neither
    [/health] nor [/analyze] nor under [/static/] is answered 404
    [{"error": "Endpoint not found"}], whatever the method; [/health] and
    [/analyze] are never answered 404. *)
Theorem unknown_paths (r : request) (lg : logger) :
  (simple_path (path r) = true ->
   path r <> "/health"%string -> path r <> "/analyze"%string ->
   matches (rule_path static_rule) (path r) = false ->
   dispatch_request r lg
   = (Ok (Response (error_body "Endpoint not found") 404), lg))
  /\
  (path r = "/health"%string \/ path r = "/analyze"%string ->
   forall resp lg',
     dispatch_request r lg = (Ok resp, lg') -> status_of resp <> 404).
Proof.
  split.
  - intros Hs H1 H2 Hst.
    assert (match_path (path r) = Some []) as Hn.
    { unfold match_path, url_map. rewrite Hs.
      cbn [List.filter]. rewrite Hst.
      cbn [rule_path health_rule analyze_rule matches].
      apply not_eq_sym, String.eqb_neq in H1.
      apply not_eq_sym, String.eqb_neq in H2.
      rewrite H1, H2. reflexivity. }
    unfold dispatch_request, match_request. rewrite Hn. reflexivity.
  - intros Hpath resp lg'.
    route r; try analyze_cases r; intros H; injection H as <- <-;
      try discriminate;
      destruct Hpath as [Hpath|Hpath]; rewrite Hpath in Hp;
      discriminate Hp.
Qed.

Lemma unknown_paths_witness :
  dispatch_request (bare_request "DELETE" "/nonexistent" RaisesNotFound) []
  = (Ok (Response (error_body "Endpoint not found") 404), [])
  /\
  status_of (Response (error_body "Method not allowed") 405) <> 404.
Proof.
  split.
  - destruct (unknown_paths
                (bare_request "DELETE" "/nonexistent" RaisesNotFound) [])
      as (H & _).
    apply H; [reflexivity | discriminate | discriminate | reflexivity].
  - destruct (unknown_paths
                (bare_request "DELETE" "/health" RaisesNotFound) [])
      as (_ & H).
    apply (H (or_introl eq_refl)
             (Response (error_body "Method not allowed") 405) []).
    reflexivity.
Defined.

(** X19.  On [/health] the answer is 405 exactly when the method is none
    of [GET], [HEAD], [OPTIONS]; on [/analyze] exactly when it is neither
    [POST] nor [OPTIONS]; under [/static/] a method other than [GET],
    [HEAD], [OPTIONS] is answered 405 [{"error": "Method not allowed"}]. *)
Theorem disallowed_methods (r : request) (lg : logger) :
  (path r = "/health"%string ->
   ((exists resp lg',
       dispatch_request r lg = (Ok resp, lg') /\ status_of resp = 405)
    <-> ~ In (method r) ["GET"; "HEAD"; "OPTIONS"]%string))
  /\
  (path r = "/analyze"%string ->
   ((exists resp lg',
       dispatch_request r lg = (Ok resp, lg') /\ status_of resp = 405)
    <-> ~ In (method r) ["POST"; "OPTIONS"]%string))
  /\
  (match_path (path r) = Some [static_rule] ->
   ~ In (method r) ["GET"; "HEAD"; "OPTIONS"]%string ->
   dispatch_request r lg
   = (Ok (Response (error_body "Method not allowed") 405), lg)).
Proof.
  split; [|split].
  - intros Hpath. split.
    + route r; try analyze_cases r; intros (resp & lg' & H & Hs);
        injection H as <- <-; try discriminate Hs;
        try (rewrite Hpath in Hp; discriminate Hp).
      apply mem_false. assumption.
    + intros Hn. apply mem_false in Hn.
      route r; try congruence;
        try (rewrite Hpath in Hp; discriminate Hp).
      eexists _, _. split; reflexivity.
  - intros Hpath. split.
    + route r; try analyze_cases r; intros (resp & lg' & H & Hs);
        injection H as <- <-; try discriminate Hs;
        try (rewrite Hpath in Hp; discriminate Hp).
      apply mem_false. assumption.
    + intros Hn. apply mem_false in Hn.
      route r; try congruence;
        try (rewrite Hpath in Hp; discriminate Hp).
      eexists _, _. split; reflexivity.
  - intros Hpath Hn. apply mem_false in Hn.
    route r; try congruence;
      try (rewrite Hp in Hpath; discriminate Hpath).
    reflexivity.
Qed.

Lemma disallowed_methods_witness :
  dispatch_request (bare_request "PUT" "/static/x" RaisesNotFound) []
  = (Ok (Response (error_body "Method not allowed") 405), [])
  /\
  ~ In "DELETE"%string ["POST"; "OPTIONS"]%string.
Proof.
  split.
  - destruct (disallowed_methods
                (bare_request "PUT" "/static/x" RaisesNotFound) [])
      as (_ & _ & H).
    apply H; [reflexivity|].
    intros [H1|[H1|[H1|[]]]]; discriminate H1.
  - destruct (disallowed_methods
                (bare_request "DELETE" "/analyze" RaisesNotFound) [])
      as (_ & H & _).
    apply (H eq_refl).
    eexists _, _. split; reflexivity.
Defined.
